(** * dist_utils: the distributed-training helpers of the detection runner

    A shallow embedding of
    [models/vision/detection/awsdet/utils/runner/dist_utils.py].

    The module is glue between a training loop and two external libraries:
    the distributed runtime ([herring.tensorflow], imported as [hr]) and the
    deep-learning framework ([tensorflow], imported as [tf]).  Neither is part
    of the module, so both are interfaces here ([Herring], [TensorFlow]):
    every operation is an arbitrary transformer of an opaque external state.
    What the module itself contributes is which calls it issues, with which
    arguments, in which order, and what it returns; so every call it makes is
    recorded in a log, and the statements below are about outcomes and logs.

    The external operations are taken as returning normally: how they fail is
    the external runtime's business.  Errors of the module's own operations
    (indexing the device list) and of the function handed to [master_only]
    are modelled. *)

From Stdlib Require Import ZArith Lia.
From stdpp Require Import base list strings pretty.

Open Scope Z_scope.

(** ** Python values at the dynamic boundary *)

(** The arguments and results of a function decorated by [master_only] are
    arbitrary Python objects. *)
Inductive value : Type :=
| VNone
| VBool (b : bool)
| VInt (z : Z)
| VStr (s : string)
| VRef (address : N).

(** Keyword arguments, in call order. *)
Definition kwargs : Type := list (string * value).

Inductive exn : Type :=
| IndexError
| UserError (message : string).

(** How a call ends: with a value, or with an exception that nobody catches
    (the module has no [try]). *)
Inductive outcome (A : Type) : Type :=
| Returned (a : A)
| Raised (e : exn).
Arguments Returned {A} a.
Arguments Raised {A} e.

(** [tf.float32] and its siblings, as far as the module names them. *)
Inductive dtype : Type := float32 | float64 | int32 | int64.

(** [seq[i]] on a Python list: a negative index counts from the end, and
    only an index outside [-len, len) is an [IndexError]. *)
Definition py_getitem {A : Type} (l : list A) (i : Z) : option A :=
  let n := Z.of_nat (length l) in
  let j := if i <? 0 then i + n else i in
  if (j <? 0) || (n <=? j) then None else l !! Z.to_nat j.

(** [bool(seq)]: a list is true when it is not empty. *)
Definition py_truthy {A : Type} (l : list A) : bool :=
  match l with [] => false | _ :: _ => true end.

Section World.

(** Objects of the external libraries, opaque to the module. *)
Context {E : Type}         (* the state the two libraries own *)
        {device : Type}    (* tf.config.PhysicalDevice *)
        {tensor : Type}    (* tf.Tensor *)
        {tape : Type}      (* tf.GradientTape *)
        {variable : Type}. (* tf.Variable *)

(** ** The external interfaces *)

(** [herring.tensorflow].  [herring_broadcast_variables] is part of the
    interface although its two call sites are commented out. *)
Class Herring : Type := {
  herring_rank : E -> Z * E;
  herring_local_rank : E -> Z * E;
  herring_size : E -> Z * E;
  herring_local_size : E -> Z * E;
  herring_DistributedGradientTape : tape -> E -> tape * E;
  herring_broadcast_variables : list variable -> Z -> E -> E;
  herring_oob_allreduce : tensor -> E -> tensor * E
}.

(** [tensorflow]. *)
Class TensorFlow : Type := {
  tensorflow_list_physical_devices : string -> E -> list device * E;
  tensorflow_set_memory_growth : device -> bool -> E -> E;
  tensorflow_set_visible_devices : device -> string -> E -> E;
  tensorflow_constant : Z -> dtype -> E -> tensor * E
}.

(** A Python callable, as seen from its caller. *)
Definition callable : Type := list value -> kwargs -> E -> outcome value * E.

(** ** Calls and the world *)

(** One constructor per external operation, with the arguments of the
    call.  [EvBarrier] stands for a dedicated barrier primitive. *)
Inductive event : Type :=
| EvListPhysicalDevices (device_type : string)
| EvSetMemoryGrowth (d : device) (enable : bool)
| EvSetVisibleDevices (d : device) (device_type : string)
| EvConstant (v : Z) (dt : dtype)
| EvRank
| EvLocalRank
| EvSize
| EvLocalSize
| EvDistributedGradientTape (t : tape)
| EvBroadcastVariables (vs : list variable) (root_rank : Z)
| EvOobAllreduce (t : tensor)
| EvBarrier
| EvPrint (line : string)
| EvCall (args : list value) (kw : kwargs).

Record world : Type := World {
  ext : E;
  log : list event
}.

(** Collective communication: every process takes part. *)
Definition is_collective (e : event) : bool :=
  match e with
  | EvBroadcastVariables _ _ | EvOobAllreduce _ | EvBarrier => true
  | _ => false
  end.

Definition is_allreduce (e : event) : bool :=
  match e with EvOobAllreduce _ => true | _ => false end.

Definition is_call (e : event) : bool :=
  match e with EvCall _ _ => true | _ => false end.

Definition is_print (e : event) : bool :=
  match e with EvPrint _ => true | _ => false end.

(** Device configuration: memory growth and visibility. *)
Definition is_device_config (e : event) : bool :=
  match e with
  | EvSetMemoryGrowth _ _ | EvSetVisibleDevices _ _ => true
  | _ => false
  end.

Definition count (p : event -> bool) (l : list event) : nat :=
  length (filter (fun e => p e = true) l).

(** ** The monad of the module: state and exceptions *)

Definition M (A : Type) : Type := world -> outcome A * world.

Definition ret {A : Type} (a : A) : M A := fun w => (Returned a, w).

Definition bind {A B : Type} (m : M A) (k : A -> M B) : M B :=
  fun w =>
    match m w with
    | (Returned a, w') => k a w'
    | (Raised e, w') => (Raised e, w')
    end.

Definition raise {A : Type} (e : exn) : M A := fun w => (Raised e, w).

(** An external call that returns a result: logged, then answered by the
    library. *)
Definition extcall {A : Type} (ev : event) (h : E -> A * E) : M A :=
  fun w =>
    let (a, e') := h (ext w) in
    (Returned a, World e' (log w ++ [ev])).

(** An external call made for its effect. *)
Definition extcall_ (ev : event) (h : E -> E) : M unit :=
  fun w => (Returned tt, World (h (ext w)) (log w ++ [ev])).

(** Calling a Python callable: whatever it does, it does to the external
    state, and it may raise. *)
Definition invoke (f : callable) (args : list value) (kw : kwargs) : M value :=
  fun w =>
    let (o, e') := f args kw (ext w) in
    (o, World e' (log w ++ [EvCall args kw])).

(** [print(line)]: standard output is part of the log. *)
Definition print (line : string) : M unit :=
  fun w => (Returned tt, World (ext w) (log w ++ [EvPrint line])).

(** [for x in xs: body(x)] *)
Fixpoint for_each {A : Type} (xs : list A) (body : A -> M unit) : M unit :=
  match xs with
  | [] => ret tt
  | x :: xs' => bind (body x) (fun _ => for_each xs' body)
  end.

(** [xs[i]], raising [IndexError] out of range. *)
Definition getitem {A : Type} (xs : list A) (i : Z) : M A :=
  match py_getitem xs i with
  | Some x => ret x
  | None => raise IndexError
  end.

End World.

Arguments Herring : clear implicits.
Arguments TensorFlow : clear implicits.
Arguments callable : clear implicits.
Arguments event : clear implicits.
Arguments world : clear implicits.
Arguments M : clear implicits.

Declare Scope py_scope.
Delimit Scope py_scope with py.
Notation "x <- m ;; k" := (bind m (fun x => k))
  (at level 100, m at next level, right associativity) : py_scope.
Notation "m ;;; k" := (bind m (fun _ => k))
  (at level 100, right associativity) : py_scope.

Open Scope py_scope.

(** ** The module *)

Section DistUtils.

Context {E device tensor tape variable : Type}
        {hr : Herring E tensor tape variable}
        {tf : TensorFlow E device tensor}.

Local Abbreviation M := (M E device tensor tape variable).

(** *** The calls into the two libraries *)

Definition hr_rank : M Z := extcall EvRank herring_rank.
Definition hr_local_rank : M Z := extcall EvLocalRank herring_local_rank.
Definition hr_size : M Z := extcall EvSize herring_size.
Definition hr_local_size : M Z := extcall EvLocalSize herring_local_size.

Definition hr_DistributedGradientTape (t : tape) : M tape :=
  extcall (EvDistributedGradientTape t) (herring_DistributedGradientTape t).

Definition hr_broadcast_variables (vs : list variable) (root_rank : Z) : M unit :=
  extcall_ (EvBroadcastVariables vs root_rank)
           (herring_broadcast_variables vs root_rank).

Definition hr_oob_allreduce (t : tensor) : M tensor :=
  extcall (EvOobAllreduce t) (herring_oob_allreduce t).

Definition tf_list_physical_devices (device_type : string) : M (list device) :=
  extcall (EvListPhysicalDevices device_type)
          (tensorflow_list_physical_devices device_type).

Definition tf_set_memory_growth (d : device) (enable : bool) : M unit :=
  extcall_ (EvSetMemoryGrowth d enable) (tensorflow_set_memory_growth d enable).

Definition tf_set_visible_devices (d : device) (device_type : string) : M unit :=
  extcall_ (EvSetVisibleDevices d device_type)
           (tensorflow_set_visible_devices d device_type).

Definition tf_constant (v : Z) (dt : dtype) : M tensor :=
  extcall (EvConstant v dt) (tensorflow_constant v dt).

(** *** The functions of dist_utils.py *)

(** [def init_dist()] *)
Definition init_dist : M unit :=
  gpus <- tf_list_physical_devices "GPU" ;;
  for_each gpus (fun gpu => tf_set_memory_growth gpu true) ;;;
  if py_truthy gpus then
    i <- hr_local_rank ;;
    gpu <- getitem gpus i ;;
    tf_set_visible_devices gpu "GPU"
  else ret tt.

(** [def get_dist_info()]: the tuple is built left to right. *)
Definition get_dist_info : M (Z * Z * Z * Z) :=
  r <- hr_rank ;;
  lr <- hr_local_rank ;;
  s <- hr_size ;;
  ls <- hr_local_size ;;
  ret (r, lr, s, ls).

(** [def master_only(func)]: the result is [wrapper].  [functools.wraps]
    copies the name and docstring of [func] and has no part in a call. *)
Definition master_only (func : callable E) (args : list value) (kw : kwargs)
  : M value :=
  info <- get_dist_info ;;
  let '(rank, _, _, _) := info in
  if rank =? 0 then invoke func args kw else ret VNone.

(** What [broadcast_weights] reads of the runner. *)
Record runner : Type := Runner {
  rank : Z;
  model_variables : list variable;
  optimizer_variables : list variable
}.

(** ['Rank {} broadcasting'.format(rank)] *)
Definition rank_banner (rank : Z) : string :=
  "Rank " +:+ pretty rank +:+ " broadcasting".

(** [def broadcast_weights(runner)]: both calls of
    [hr.broadcast_variables] are comments in the source. *)
Definition broadcast_weights (r : runner) : M unit :=
  print (rank_banner (rank r)) ;;;
  print "Variable broadcast done.".

(** [def get_distributed_tape(tape)] *)
Definition get_distributed_tape (t : tape) : M tape :=
  hr_DistributedGradientTape t.

(** [def get_barrier()]: the argument is built before the call. *)
Definition get_barrier : M tensor :=
  zero <- tf_constant 0 float32 ;;
  hr_oob_allreduce zero.

(** The part of a log that a run added. *)
Definition added (w w' : world E device tensor tape variable)
  : list (event device tensor tape variable) :=
  drop (length (log w)) (log w').

(** The external state once memory growth was enabled on each device of
    [gpus], first to last. *)
Definition grow_all (gpus : list device) (e : E) : E :=
  foldl (fun e gpu => tensorflow_set_memory_growth gpu true e) e gpus.

(** *** Reading a run of [init_dist] *)

(** What the enumeration of [init_dist] answers when it starts in [w]. *)
Definition enumerated (w : world E device tensor tape variable) : list device :=
  (tensorflow_list_physical_devices "GPU" (ext w)).1.

(** What [hr.local_rank()] answers at the point where [init_dist] asks:
    after the enumeration and the memory-growth calls. *)
Definition local_rank_seen (w : world E device tensor tape variable) : Z :=
  (herring_local_rank
     (grow_all (enumerated w)
               (tensorflow_list_physical_devices "GPU" (ext w)).2)).1.

(** The devices a log makes visible, in call order. *)
Definition selected (l : list (event device tensor tape variable)) : list device :=
  omap (fun e => match e with
                 | EvSetVisibleDevices d _ => Some d
                 | _ => None
                 end) l.

(** The queries of process identity. *)
Definition is_query (e : event device tensor tape variable) : bool :=
  match e with
  | EvRank | EvLocalRank | EvSize | EvLocalSize => true
  | _ => false
  end.

(** The calls into the two libraries, as opposed to printing and to calling
    the decorated function. *)
Definition is_library_call (e : event device tensor tape variable) : bool :=
  match e with
  | EvPrint _ | EvCall _ _ => false
  | _ => true
  end.

End DistUtils.

(** ** Two concrete runtimes, to run the module on *)

Module Sim.

(** One process of a simulated job: what the runtime would answer, the
    accelerators of the machine, and the device configuration so far. *)
Record process : Type := Process {
  p_rank : Z;
  p_local_rank : Z;
  p_size : Z;
  p_local_size : Z;
  p_gpus : list N;
  p_growing : list N;
  p_visible : list N;
  p_reduced : nat
}.

#[global] Instance herring : Herring process Z N N := {
  herring_rank p := (p_rank p, p);
  herring_local_rank p := (p_local_rank p, p);
  herring_size p := (p_size p, p);
  herring_local_size p := (p_local_size p, p);
  herring_DistributedGradientTape t p := ((t + 1000)%N, p);
  herring_broadcast_variables _ _ p := p;
  herring_oob_allreduce t p :=
    (t * p_size p,
     Process (p_rank p) (p_local_rank p) (p_size p) (p_local_size p)
             (p_gpus p) (p_growing p) (p_visible p) (S (p_reduced p)))
}.

#[global] Instance tensorflow : TensorFlow process N Z := {
  tensorflow_list_physical_devices _ p := (p_gpus p, p);
  tensorflow_set_memory_growth d enable p :=
    Process (p_rank p) (p_local_rank p) (p_size p) (p_local_size p)
            (p_gpus p) (if enable then p_growing p ++ [d] else p_growing p)
            (p_visible p) (p_reduced p);
  tensorflow_set_visible_devices d _ p :=
    Process (p_rank p) (p_local_rank p) (p_size p) (p_local_size p)
            (p_gpus p) (p_growing p) [d] (p_reduced p);
  tensorflow_constant v _ p := (v, p)
}.

(** A process with the given ranks in a job of [8] processes, [4] a machine,
    on a machine with the given accelerators. *)
Definition process_of (rank local_rank : Z) (gpus : list N) : process :=
  Process rank local_rank 8 4 gpus [] [] 0.

Definition start (p : process) : world process N Z N N := World p [].

(** A function to decorate: it answers [VInt 42] and leaves a mark in the
    external state. *)
Definition answer : callable process :=
  fun _ _ p =>
    (Returned (VInt 42),
     Process (p_rank p) (p_local_rank p) (p_size p) (p_local_size p)
             (p_gpus p) (p_growing p) (p_visible p) (S (p_reduced p))).

(** A function to decorate that always raises. *)
Definition failing : callable process :=
  fun _ _ p => (Raised (UserError "boom"), p).

(** A runtime that answers every query with the number of queries it was
    asked before. *)
Definition ticking : Herring Z Z N N := {|
  herring_rank e := (e, e + 1);
  herring_local_rank e := (e, e + 1);
  herring_size e := (e, e + 1);
  herring_local_size e := (e, e + 1);
  herring_DistributedGradientTape t e := (t, e);
  herring_broadcast_variables _ _ e := e;
  herring_oob_allreduce t e := (t, e)
|}.

End Sim.

(** ** Properties *)

Section Properties.

Context {E device tensor tape variable : Type}
        {hr : Herring E tensor tape variable}
        {tf : TensorFlow E device tensor}.

Local Abbreviation world := (world E device tensor tape variable).
Local Abbreviation event := (event device tensor tape variable).
Local Abbreviation M := (M E device tensor tape variable).

Implicit Types (w : world) (l : list event) (gpus : list device).

(** *** Logs *)

Lemma added_app w w' l : log w' = log w ++ l -> added w w' = l.
Proof.
  unfold added. intros ->. by rewrite drop_app_length.
Qed.

Lemma added_World w e l : added w (World e (log w ++ l)) = l.
Proof. by apply added_app. Qed.

Lemma count_app (p : event -> bool) l1 l2 :
  count p (l1 ++ l2) = (count p l1 + count p l2)%nat.
Proof. unfold count. by rewrite filter_app, length_app. Qed.

Lemma count_map_none {A : Type} (p : event -> bool) (f : A -> event) (xs : list A) :
  (forall x, p (f x) = false) -> count p (map f xs) = 0%nat.
Proof.
  intros Hp. unfold count. induction xs as [|x xs IH]; [done|].
  cbn [map]. rewrite filter_cons_False; [exact IH|].
  rewrite Hp. discriminate.
Qed.

(** *** Running the primitives *)

Lemma bind_run {A B : Type} (m : M A) (k : A -> M B) w a w' :
  m w = (Returned a, w') -> bind m k w = k a w'.
Proof. unfold bind. by intros ->. Qed.

Lemma bind_raise {A B : Type} (m : M A) (k : A -> M B) w e w' :
  m w = (Raised e, w') -> bind m k w = (Raised e, w').
Proof. unfold bind. by intros ->. Qed.

Lemma extcall_run {A : Type} (ev : event) (h : E -> A * E) w :
  extcall ev h w = (Returned (h (ext w)).1, World (h (ext w)).2 (log w ++ [ev])).
Proof. unfold extcall. by destruct (h (ext w)). Qed.

Lemma invoke_run (f : callable E) args kw w :
  invoke f args kw w
  = ((f args kw (ext w)).1,
     World (f args kw (ext w)).2 (log w ++ [EvCall args kw])).
Proof. unfold invoke. by destruct (f args kw (ext w)). Qed.

(** The loop of [init_dist]: one call per device, in the order of the list. *)
Lemma for_each_growth_run gpus w :
  for_each gpus (fun gpu => tf_set_memory_growth gpu true) w
  = (Returned tt,
     World (grow_all gpus (ext w))
           (log w ++ map (fun gpu => EvSetMemoryGrowth gpu true) gpus)).
Proof.
  revert w. induction gpus as [|gpu gpus IH]; intros w.
  - cbn. rewrite app_nil_r. by destruct w.
  - cbn [for_each]. unfold bind at 1.
    unfold tf_set_memory_growth at 1, extcall_. rewrite IH. cbn.
    by rewrite <- app_assoc.
Qed.

(** *** Indexing a Python list *)

Lemma py_getitem_None {A : Type} (xs : list A) (i : Z) :
  py_getitem xs i = None
  <-> i < - Z.of_nat (length xs) \/ Z.of_nat (length xs) <= i.
Proof.
  unfold py_getitem. cbv zeta.
  destruct (Z.ltb_spec i 0) as [Hi|Hi];
    match goal with |- context [(?j <? 0) || (?n <=? ?j)] =>
      destruct (Z.ltb_spec j 0); destruct (Z.leb_spec n j) end;
    cbn [orb]; try (split; [intros _; lia | done]).
  - rewrite lookup_ge_None. split; lia.
  - rewrite lookup_ge_None. split; lia.
Qed.

Lemma py_getitem_Some {A : Type} (xs : list A) (i : Z) :
  - Z.of_nat (length xs) <= i < Z.of_nat (length xs)
  -> exists x, py_getitem xs i = Some x.
Proof.
  intros Hi. destruct (py_getitem xs i) as [x|] eqn:Hx; [by exists x|].
  apply py_getitem_None in Hx. lia.
Qed.

Lemma py_getitem_nonneg {A : Type} (xs : list A) (i : Z) :
  0 <= i -> py_getitem xs i = xs !! Z.to_nat i.
Proof.
  intros Hi. unfold py_getitem. cbv zeta.
  destruct (Z.ltb_spec i 0); [lia|].
  destruct (Z.ltb_spec i 0); [lia|]. cbn [orb].
  destruct (Z.leb_spec (Z.of_nat (length xs)) i); [|done].
  symmetry. apply lookup_ge_None. lia.
Qed.

(** *** Running the functions of the module *)

Lemma get_dist_info_run w :
  let q1 := herring_rank (ext w) in
  let q2 := herring_local_rank q1.2 in
  let q3 := herring_size q2.2 in
  let q4 := herring_local_size q3.2 in
  get_dist_info w
  = (Returned (q1.1, q2.1, q3.1, q4.1),
     World q4.2 (log w ++ [EvRank; EvLocalRank; EvSize; EvLocalSize])).
Proof.
  cbv zeta. unfold get_dist_info.
  unfold hr_rank, hr_local_rank, hr_size, hr_local_size.
  do 4 (erewrite bind_run by apply extcall_run; cbn [ext log]).
  unfold ret. by repeat rewrite <- app_assoc.
Qed.

Lemma master_only_run (func : callable E) args kw w :
  master_only func args kw w
  = if (herring_rank (ext w)).1 =? 0
    then invoke func args kw (get_dist_info w).2
    else (Returned VNone, (get_dist_info w).2).
Proof.
  unfold master_only. rewrite (get_dist_info_run w). cbv zeta.
  erewrite bind_run by apply get_dist_info_run. cbn [snd].
  by destruct (_ =? 0).
Qed.

Lemma init_dist_run w :
  let gpus := (tensorflow_list_physical_devices "GPU" (ext w)).1 in
  let e1 := (tensorflow_list_physical_devices "GPU" (ext w)).2 in
  let growth := map (fun gpu => EvSetMemoryGrowth gpu true) gpus in
  let lr := (herring_local_rank (grow_all gpus e1)).1 in
  let e3 := (herring_local_rank (grow_all gpus e1)).2 in
  init_dist w
  = match gpus with
    | [] => (Returned tt, World e1 (log w ++ [EvListPhysicalDevices "GPU"]))
    | _ :: _ =>
        match py_getitem gpus lr with
        | Some gpu =>
            (Returned tt,
             World (tensorflow_set_visible_devices gpu "GPU" e3)
                   (log w ++ EvListPhysicalDevices "GPU" :: growth
                          ++ [EvLocalRank; EvSetVisibleDevices gpu "GPU"]))
        | None =>
            (Raised IndexError,
             World e3 (log w ++ EvListPhysicalDevices "GPU" :: growth
                             ++ [EvLocalRank]))
        end
    end.
Proof.
  cbv zeta. unfold init_dist, tf_list_physical_devices.
  erewrite bind_run by apply extcall_run.
  erewrite bind_run by apply for_each_growth_run.
  cbn [ext log].
  destruct (tensorflow_list_physical_devices "GPU" (ext w)) as [gpus e1].
  cbn [fst snd]. destruct gpus as [|gpu0 gpus'].
  { cbn. by rewrite app_nil_r. }
  cbn [py_truthy]. set (gpus := gpu0 :: gpus').
  unfold hr_local_rank. erewrite bind_run by apply extcall_run.
  cbn [ext log]. unfold getitem.
  destruct (py_getitem gpus _) as [gpu|].
  - unfold bind, ret, tf_set_visible_devices, extcall_. cbn [ext log].
    do 2 f_equal. rewrite <- !app_assoc. by cbn.
  - unfold bind, raise. do 2 f_equal. rewrite <- !app_assoc. by cbn.
Qed.

(** *** init_dist *)

(** C4.  When the enumeration of accelerators answers the empty list,
    [init_dist] makes no call that configures a device, neither memory
    growth nor visibility: the enumeration is the only call it logs, the
    external state is the one the enumeration left, and it returns
    normally. *)
Theorem init_dist_no_gpus w :
  (tensorflow_list_physical_devices "GPU" (ext w)).1 = []
  -> init_dist w
     = (Returned tt,
        World (tensorflow_list_physical_devices "GPU" (ext w)).2
              (log w ++ [EvListPhysicalDevices "GPU"]))
     /\ count is_device_config (added w (init_dist w).2) = 0%nat.
Proof.
  intros Hgpus. pose proof (init_dist_run w) as Hrun. cbv zeta in Hrun.
  rewrite Hgpus in Hrun. rewrite Hrun. split; [done|].
  cbn [snd]. by rewrite added_World.
Qed.

(** With a local rank that is a position of the list, the device at that
    position is the one made visible, and [init_dist] returns. *)
Lemma init_dist_in_range w :
  let gpus := (tensorflow_list_physical_devices "GPU" (ext w)).1 in
  let e1 := (tensorflow_list_physical_devices "GPU" (ext w)).2 in
  let growth := map (fun gpu => EvSetMemoryGrowth gpu true) gpus in
  let lr := (herring_local_rank (grow_all gpus e1)).1 in
  let e3 := (herring_local_rank (grow_all gpus e1)).2 in
  0 <= lr < Z.of_nat (length gpus)
  -> exists gpu,
       gpus !! Z.to_nat lr = Some gpu
       /\ init_dist w
          = (Returned tt,
             World (tensorflow_set_visible_devices gpu "GPU" e3)
                   (log w ++ EvListPhysicalDevices "GPU" :: growth
                          ++ [EvLocalRank; EvSetVisibleDevices gpu "GPU"])).
Proof.
  intros gpus e1 growth lr e3 Hin.
  pose proof (init_dist_run w) as Hrun. cbv zeta in Hrun.
  fold gpus e1 growth lr e3 in Hrun.
  destruct (lookup_lt_is_Some_2 gpus (Z.to_nat lr)) as [gpu Hgpu]; [lia|].
  exists gpu. split; [exact Hgpu|].
  rewrite py_getitem_nonneg, Hgpu in Hrun by lia.
  destruct gpus as [|gpu0 gpus'] eqn:Hgpus; [cbn in Hin; lia|].
  exact Hrun.
Qed.

(** With a local rank at or beyond the length of a non-empty list, the
    indexing fails: memory growth is set, no device is made visible. *)
Lemma init_dist_beyond w :
  let gpus := (tensorflow_list_physical_devices "GPU" (ext w)).1 in
  let e1 := (tensorflow_list_physical_devices "GPU" (ext w)).2 in
  let growth := map (fun gpu => EvSetMemoryGrowth gpu true) gpus in
  let lr := (herring_local_rank (grow_all gpus e1)).1 in
  let e3 := (herring_local_rank (grow_all gpus e1)).2 in
  gpus <> [] -> Z.of_nat (length gpus) <= lr
  -> init_dist w
     = (Raised IndexError,
        World e3 (log w ++ EvListPhysicalDevices "GPU" :: growth
                        ++ [EvLocalRank])).
Proof.
  intros gpus e1 growth lr e3 Hne Hout.
  pose proof (init_dist_run w) as Hrun. cbv zeta in Hrun.
  fold gpus e1 growth lr e3 in Hrun.
  assert (py_getitem gpus lr = None) as Hnone
    by (apply py_getitem_None; right; exact Hout).
  rewrite Hnone in Hrun.
  destruct gpus as [|gpu0 gpus'] eqn:Hgpus; [done|]. exact Hrun.
Qed.

(** C7, amended.  When the enumeration answers a non-empty list [gpus] of
    [n] devices, [init_dist] enables memory growth on every device of
    [gpus], in the order of the list, and then asks for the local rank;
    after that it makes at most one more call, a visibility call; and when
    [0 <= local_rank() < n] it restricts the visible devices to the one
    device at position [local_rank()] of [gpus], and returns. *)
Theorem init_dist_configures_gpus w :
  let gpus := (tensorflow_list_physical_devices "GPU" (ext w)).1 in
  let e1 := (tensorflow_list_physical_devices "GPU" (ext w)).2 in
  let growth := map (fun gpu => EvSetMemoryGrowth gpu true) gpus in
  let lr := (herring_local_rank (grow_all gpus e1)).1 in
  let e3 := (herring_local_rank (grow_all gpus e1)).2 in
  gpus <> []
  -> (exists rest,
        added w (init_dist w).2
        = EvListPhysicalDevices "GPU" :: growth ++ EvLocalRank :: rest
        /\ (rest = [] \/ exists gpu, rest = [EvSetVisibleDevices gpu "GPU"]))
     /\ (0 <= lr < Z.of_nat (length gpus)
         -> exists gpu,
              gpus !! Z.to_nat lr = Some gpu
              /\ init_dist w
                 = (Returned tt,
                    World (tensorflow_set_visible_devices gpu "GPU" e3)
                          (log w ++ EvListPhysicalDevices "GPU" :: growth
                                 ++ [EvLocalRank;
                                     EvSetVisibleDevices gpu "GPU"]))).
Proof.
  intros gpus e1 growth lr e3 Hne. split.
  - pose proof (init_dist_run w) as Hrun. cbv zeta in Hrun.
    fold gpus e1 growth lr e3 in Hrun.
    destruct gpus as [|gpu0 gpus'] eqn:Hgpus; [done|].
    destruct (py_getitem (gpu0 :: gpus') lr) as [gpu|]; rewrite Hrun; cbn [snd];
      rewrite added_World.
    + exists [EvSetVisibleDevices gpu "GPU"]. split; [done|]. right. by exists gpu.
    + exists []. split; [done|]. by left.
  - apply init_dist_in_range.
Qed.

(** C9.  A local rank is the index of a process on its machine, so it is
    not negative.  With a non-empty list of [n] devices, when
    [local_rank()] is not within [0 .. n-1], [init_dist] raises
    [IndexError], after memory growth was enabled on every device and
    without a visibility call; and when [local_rank() < n] it does not: it
    makes the device at position [local_rank()] visible and returns. *)
Theorem init_dist_index_error w :
  let gpus := (tensorflow_list_physical_devices "GPU" (ext w)).1 in
  let e1 := (tensorflow_list_physical_devices "GPU" (ext w)).2 in
  let growth := map (fun gpu => EvSetMemoryGrowth gpu true) gpus in
  let lr := (herring_local_rank (grow_all gpus e1)).1 in
  let e3 := (herring_local_rank (grow_all gpus e1)).2 in
  let n := Z.of_nat (length gpus) in
  gpus <> [] -> 0 <= lr
  -> (~ (0 <= lr <= n - 1)
      -> init_dist w
         = (Raised IndexError,
            World e3 (log w ++ EvListPhysicalDevices "GPU" :: growth
                            ++ [EvLocalRank])))
     /\ (lr < n
         -> (init_dist w).1 <> Raised IndexError
            /\ exists gpu,
                 gpus !! Z.to_nat lr = Some gpu
                 /\ init_dist w
                    = (Returned tt,
                       World (tensorflow_set_visible_devices gpu "GPU" e3)
                             (log w ++ EvListPhysicalDevices "GPU" :: growth
                                    ++ [EvLocalRank;
                                        EvSetVisibleDevices gpu "GPU"]))).
Proof.
  intros gpus e1 growth lr e3 n Hne Hnonneg. split.
  - intros Hout. apply init_dist_beyond; [exact Hne|]. change (n <= lr). lia.
  - intros Hlt.
    destruct (init_dist_in_range w) as [gpu [Hgpu Hrun]];
      [change (0 <= lr < n); lia|].
    split; [by rewrite Hrun|]. by exists gpu.
Qed.

(** *** get_dist_info *)

(** C3.  A call of [get_dist_info] returns the four answers of the runtime
    as they are, in the order global rank, local rank, global size, local
    size; it asks the runtime the four questions in that order, once each;
    and a second call asks all four again, its answers being those the
    runtime gives in the state the first call left. *)
Theorem get_dist_info_tuple w :
  let q1 := herring_rank (ext w) in
  let q2 := herring_local_rank q1.2 in
  let q3 := herring_size q2.2 in
  let q4 := herring_local_size q3.2 in
  get_dist_info w
  = (Returned (q1.1, q2.1, q3.1, q4.1),
     World q4.2 (log w ++ [EvRank; EvLocalRank; EvSize; EvLocalSize]))
  /\ (get_dist_info ;;; get_dist_info) w = get_dist_info (get_dist_info w).2
  /\ added w ((get_dist_info ;;; get_dist_info) w).2
     = [EvRank; EvLocalRank; EvSize; EvLocalSize;
        EvRank; EvLocalRank; EvSize; EvLocalSize].
Proof.
  cbv zeta. split; [apply get_dist_info_run|].
  assert ((get_dist_info ;;; get_dist_info) w
          = get_dist_info (get_dist_info w).2) as Hseq.
  { erewrite bind_run by apply get_dist_info_run.
    by rewrite (get_dist_info_run w). }
  split; [exact Hseq|]. rewrite Hseq.
  rewrite (get_dist_info_run (get_dist_info w).2). cbv zeta. cbn [snd].
  rewrite (get_dist_info_run w) at 2. cbv zeta. cbn [snd log].
  rewrite <- app_assoc. by rewrite added_World.
Qed.

(** *** master_only *)

(** C1.  Whatever the decorated function and the arguments, one call of the
    wrapper invokes the function exactly once, with the arguments of that
    call, when the runtime answers global rank [0], and not at all when it
    answers another rank.  On rank [0] the outcome of the wrapper and the
    external state it leaves are those of one application of the function,
    to these arguments, in the state the four queries left; on another rank
    the function has no part in the result, and the external state is the
    one the queries left. *)
Theorem master_only_invocations (func : callable E) args kw w :
  let rank := (herring_rank (ext w)).1 in
  let l := added w (master_only func args kw w).2 in
  let queried := ext (get_dist_info w).2 in
  filter (fun e => is_call e = true) l
  = (if rank =? 0 then [EvCall args kw] else [])
  /\ count is_call l = (if rank =? 0 then 1%nat else 0%nat)
  /\ master_only func args kw w
     = (if rank =? 0
        then ((func args kw queried).1,
              World (func args kw queried).2
                    (log w ++ [EvRank; EvLocalRank; EvSize; EvLocalSize;
                               EvCall args kw]))
        else (Returned VNone,
              World queried
                    (log w ++ [EvRank; EvLocalRank; EvSize; EvLocalSize]))).
Proof.
  cbv zeta. rewrite master_only_run, invoke_run.
  rewrite (get_dist_info_run w). cbv zeta. cbn [snd ext log].
  destruct (_ =? 0); cbn [snd]; unfold count.
  - rewrite <- app_assoc, added_World. by repeat split.
  - rewrite added_World. by repeat split.
Qed.

(** C5.  When the runtime answers a global rank other than [0], the wrapper
    returns [None] and raises nothing, whatever the decorated function and
    the arguments are: the function is not consulted, and the world after
    the call is the one the four queries of [get_dist_info] left. *)
Theorem master_only_skips (func : callable E) args kw w :
  (herring_rank (ext w)).1 <> 0
  -> master_only func args kw w = (Returned VNone, (get_dist_info w).2).
Proof.
  intros Hrank. rewrite master_only_run.
  by destruct (Z.eqb_spec (herring_rank (ext w)).1 0).
Qed.

(** C10.  When the runtime answers global rank [0], the wrapper ends the way
    the decorated function ends on the given arguments: it returns the
    value the function returns (and raises what the function raises), the
    function running in the external state that the queries left. *)
Theorem master_only_propagates (func : callable E) args kw w :
  (herring_rank (ext w)).1 = 0
  -> (master_only func args kw w).1
     = (func args kw (ext (get_dist_info w).2)).1
     /\ forall v,
          (func args kw (ext (get_dist_info w).2)).1 = Returned v
          -> (master_only func args kw w).1 = Returned v.
Proof.
  intros Hrank.
  assert ((master_only func args kw w).1
          = (func args kw (ext (get_dist_info w).2)).1) as Hout.
  { rewrite master_only_run, Hrank. cbn [Z.eqb]. by rewrite invoke_run. }
  split; [exact Hout|]. intros v Hv. by rewrite Hout.
Qed.

(** *** broadcast_weights *)

(** A broadcast, had the module issued one, would be in the log as a
    collective call. *)
Lemma hr_broadcast_variables_logged (vs : list variable) root_rank w :
  count is_collective (added w (hr_broadcast_variables vs root_rank w).2)
  = 1%nat.
Proof.
  unfold hr_broadcast_variables, extcall_. cbn [snd]. by rewrite added_World.
Qed.

(** C2.  [broadcast_weights] makes no call into the distributed runtime, no
    broadcast and no other collective: it prints its two lines and returns.
    The state of the external libraries, where the variables of the model
    and of the optimizer live, is untouched, so whatever one reads of these
    variables afterwards is what one read before. *)
Theorem broadcast_weights_only_prints (r : runner) w :
  broadcast_weights r w
  = (Returned tt,
     World (ext w)
           (log w ++ [EvPrint (rank_banner (rank r));
                      EvPrint "Variable broadcast done."]))
  /\ count is_collective (added w (broadcast_weights r w).2) = 0%nat
  /\ count is_print (added w (broadcast_weights r w).2)
     = length (added w (broadcast_weights r w).2)
  /\ forall (A : Type) (read : variable -> E -> A),
       map (fun v => read v (ext (broadcast_weights r w).2))
           (model_variables r ++ optimizer_variables r)
       = map (fun v => read v (ext w))
             (model_variables r ++ optimizer_variables r).
Proof.
  assert (broadcast_weights r w
          = (Returned tt,
             World (ext w)
                   (log w ++ [EvPrint (rank_banner (rank r));
                              EvPrint "Variable broadcast done."]))) as Hrun.
  { unfold broadcast_weights, bind, print. cbn [ext log].
    by rewrite <- app_assoc. }
  split; [exact Hrun|]. rewrite Hrun. cbn [snd ext].
  rewrite added_World. by repeat split.
Qed.

(** *** get_distributed_tape *)

(** C8.  [get_distributed_tape tape] is one call of the runtime's
    distributed gradient-tape wrapper on [tape], and nothing else: its
    result is the wrapper's result, the external state is the one the
    wrapper left, and the wrapper call is the only call logged. *)
Theorem get_distributed_tape_wraps (t : tape) w :
  get_distributed_tape t w
  = (Returned (herring_DistributedGradientTape t (ext w)).1,
     World (herring_DistributedGradientTape t (ext w)).2
           (log w ++ [EvDistributedGradientTape t])).
Proof.
  unfold get_distributed_tape, hr_DistributedGradientTape.
  apply extcall_run.
Qed.

(** *** get_barrier *)

(** C6.  [get_barrier] builds the constant [0] of type [float32] and makes
    one all-reduce call on the tensor so built; that all-reduce is the only
    collective call it makes, so no barrier primitive is called; and it
    returns what the all-reduce returns. *)
Theorem get_barrier_one_allreduce w :
  let zero := (tensorflow_constant 0 float32 (ext w)).1 in
  let e1 := (tensorflow_constant 0 float32 (ext w)).2 in
  get_barrier w
  = (Returned (herring_oob_allreduce zero e1).1,
     World (herring_oob_allreduce zero e1).2
           (log w ++ [EvConstant 0 float32; EvOobAllreduce zero]))
  /\ filter (fun e => is_collective e = true) (added w (get_barrier w).2)
     = [EvOobAllreduce zero]
  /\ count is_allreduce (added w (get_barrier w).2) = 1%nat.
Proof.
  cbv zeta.
  assert (get_barrier w
          = (Returned (herring_oob_allreduce
                         (tensorflow_constant 0 float32 (ext w)).1
                         (tensorflow_constant 0 float32 (ext w)).2).1,
             World (herring_oob_allreduce
                      (tensorflow_constant 0 float32 (ext w)).1
                      (tensorflow_constant 0 float32 (ext w)).2).2
                   (log w ++ [EvConstant 0 float32;
                              EvOobAllreduce
                                (tensorflow_constant 0 float32 (ext w)).1])))
    as Hrun.
  { unfold get_barrier, tf_constant, hr_oob_allreduce.
    erewrite bind_run by apply extcall_run.
    rewrite extcall_run. cbn [ext log]. by rewrite <- app_assoc. }
  split; [exact Hrun|]. rewrite Hrun. cbn [snd].
  rewrite added_World. by split.
Qed.

End Properties.

(** ** The module on the simulated runtimes *)

Section Runs.

Import Sim.

Local Abbreviation world := (world process N Z N N).

(** Three accelerators, local rank [1]: the second one is selected. *)
Example init_dist_three_gpus :
  init_dist (start (process_of 1 1 [10; 11; 12]%N))
  = (Returned tt,
     World (Process 1 1 8 4 [10; 11; 12]%N [10; 11; 12]%N [11%N] 0)
           [EvListPhysicalDevices "GPU";
            EvSetMemoryGrowth 10%N true; EvSetMemoryGrowth 11%N true;
            EvSetMemoryGrowth 12%N true;
            EvLocalRank; EvSetVisibleDevices 11%N "GPU"]).
Proof. reflexivity. Qed.

(** Local rank [-1]: Python counts from the end, the third one is selected. *)
Example init_dist_last_gpu :
  init_dist (start (process_of 1 (-1) [10; 11; 12]%N))
  = (Returned tt,
     World (Process 1 (-1) 8 4 [10; 11; 12]%N [10; 11; 12]%N [12%N] 0)
           [EvListPhysicalDevices "GPU";
            EvSetMemoryGrowth 10%N true; EvSetMemoryGrowth 11%N true;
            EvSetMemoryGrowth 12%N true;
            EvLocalRank; EvSetVisibleDevices 12%N "GPU"]).
Proof. reflexivity. Qed.

(** Local rank [3] with three accelerators: memory growth is set on all
    three, then the indexing fails and no device is selected. *)
Example init_dist_out_of_range :
  init_dist (start (process_of 1 3 [10; 11; 12]%N))
  = (Raised IndexError,
     World (Process 1 3 8 4 [10; 11; 12]%N [10; 11; 12]%N [] 0)
           [EvListPhysicalDevices "GPU";
            EvSetMemoryGrowth 10%N true; EvSetMemoryGrowth 11%N true;
            EvSetMemoryGrowth 12%N true;
            EvLocalRank]).
Proof. reflexivity. Qed.

(** The runtime is asked again at every call: with a runtime whose answers
    change, two calls in a row return different tuples, each built left to
    right. *)
Example get_dist_info_twice :
  get_dist_info (hr := ticking) (device := N) (World 0 [])
  = (Returned (0, 1, 2, 3), World 4 [EvRank; EvLocalRank; EvSize; EvLocalSize])
  /\ get_dist_info (hr := ticking) (device := N) (World 4 [])
     = (Returned (4, 5, 6, 7), World 8 [EvRank; EvLocalRank; EvSize; EvLocalSize]).
Proof. split; reflexivity. Qed.

Example master_only_on_master :
  master_only answer [VInt 1] [("verbose", VBool true)]
              (start (process_of 0 0 []))
  = (Returned (VInt 42),
     World (Process 0 0 8 4 [] [] [] 1)
           [EvRank; EvLocalRank; EvSize; EvLocalSize;
            EvCall [VInt 1] [("verbose", VBool true)]]).
Proof. reflexivity. Qed.

Example master_only_on_worker :
  master_only answer [] [] (start (process_of 5 1 []))
  = (Returned VNone,
     World (process_of 5 1 []) [EvRank; EvLocalRank; EvSize; EvLocalSize]).
Proof. reflexivity. Qed.

Example broadcast_weights_output :
  (broadcast_weights (Runner (-3) [1%N] [2%N])
                     (start (process_of 3 0 []))).2
  = World (process_of 3 0 [])
          [EvPrint "Rank -3 broadcasting"; EvPrint "Variable broadcast done."].
Proof. reflexivity. Qed.

(** C4 at a machine without accelerators. *)
Lemma init_dist_no_gpus_witness :
  init_dist (start (process_of 1 0 []))
  = (Returned tt, World (process_of 1 0 []) [EvListPhysicalDevices "GPU"])
  /\ count is_device_config
           (added (start (process_of 1 0 []))
                  (init_dist (start (process_of 1 0 []))).2) = 0%nat.
Proof.
  refine (init_dist_no_gpus (start (process_of 1 0 [])) _). reflexivity.
Defined.

(** C7, amended, at three accelerators and local rank [1]. *)
Lemma init_dist_configures_gpus_witness :
  [10; 11; 12]%N <> []
  /\ exists gpu,
       [10; 11; 12]%N !! 1%nat = Some gpu
       /\ init_dist (start (process_of 1 1 [10; 11; 12]%N))
          = (Returned tt,
             World (Process 1 1 8 4 [10; 11; 12]%N [10; 11; 12]%N [gpu] 0)
                   [EvListPhysicalDevices "GPU";
                    EvSetMemoryGrowth 10%N true; EvSetMemoryGrowth 11%N true;
                    EvSetMemoryGrowth 12%N true;
                    EvLocalRank; EvSetVisibleDevices gpu "GPU"]).
Proof.
  split; [discriminate|].
  refine (proj2 (init_dist_configures_gpus
                   (start (process_of 1 1 [10; 11; 12]%N)) _) _).
  - discriminate.
  - cbn. lia.
Defined.

(** C7 as stated fails.  On a machine with three accelerators, a process
    with local rank [3] enumerates a non-empty list, enables memory growth
    on the three devices, and then makes no device visible: the indexing
    raises [IndexError]. *)
Lemma init_dist_no_device_at_local_rank :
  ~ (forall w : world,
       enumerated w <> []
       -> exists gpu,
            (init_dist w).1 = Returned tt
            /\ selected (added w (init_dist w).2) = [gpu]).
Proof.
  intros H.
  destruct (H (start (process_of 1 3 [10; 11; 12]%N))) as [gpu [Hret _]];
    [discriminate|].
  discriminate Hret.
Qed.

(** C9 at three accelerators: local rank [3] fails, local rank [1] selects
    the second device. *)
Lemma init_dist_index_error_witness :
  (init_dist (start (process_of 1 3 [10; 11; 12]%N))).1 = Raised IndexError
  /\ (init_dist (start (process_of 1 1 [10; 11; 12]%N))).1 <> Raised IndexError.
Proof.
  split.
  - refine (f_equal fst
              (proj1 (init_dist_index_error
                        (start (process_of 1 3 [10; 11; 12]%N)) _ _) _)).
    + discriminate.
    + cbn. lia.
    + cbn. lia.
  - refine (proj1 (proj2 (init_dist_index_error
                            (start (process_of 1 1 [10; 11; 12]%N)) _ _) _)).
    + discriminate.
    + cbn. lia.
    + cbn. lia.
Defined.

(** C5 on a worker, with a function that would raise. *)
Lemma master_only_skips_witness :
  master_only failing [VInt 1] [] (start (process_of 3 0 []))
  = (Returned VNone,
     World (process_of 3 0 []) [EvRank; EvLocalRank; EvSize; EvLocalSize]).
Proof.
  refine (master_only_skips failing [VInt 1] []
            (start (process_of 3 0 [])) _).
  discriminate.
Defined.

(** C10 on the master. *)
Lemma master_only_propagates_witness :
  (master_only answer [VInt 1] [] (start (process_of 0 0 []))).1
  = Returned (VInt 42).
Proof.
  refine (proj2 (master_only_propagates answer [VInt 1] []
                   (start (process_of 0 0 [])) _) (VInt 42) _);
    reflexivity.
Defined.

End Runs.

(** ** Further properties of the module *)

Section Further.

Context {E device tensor tape variable : Type}
        {hr : Herring E tensor tape variable}
        {tf : TensorFlow E device tensor}.

Local Abbreviation world := (world E device tensor tape variable).
Local Abbreviation event := (event device tensor tape variable).

Implicit Types (w : world) (l : list event) (gpus : list device).

Lemma selected_app l1 l2 : selected (l1 ++ l2) = selected l1 ++ selected l2.
Proof. apply omap_app. Qed.

Lemma selected_growth gpus :
  selected (map (fun gpu => EvSetMemoryGrowth gpu true) gpus : list event) = [].
Proof. induction gpus as [|gpu gpus IH]; [done|]. cbn. exact IH. Qed.

Lemma filter_device_config_growth gpus :
  filter (fun e => is_device_config e = true)
         (map (fun gpu => EvSetMemoryGrowth gpu true) gpus : list event)
  = map (fun gpu => EvSetMemoryGrowth gpu true) gpus.
Proof.
  induction gpus as [|gpu gpus IH]; [done|].
  cbn [map]. rewrite filter_cons_True by done. by rewrite IH.
Qed.

Lemma py_getitem_elem_of {A : Type} (xs : list A) (i : Z) (x : A) :
  py_getitem xs i = Some x -> x ∈ xs.
Proof.
  unfold py_getitem. cbv zeta. destruct (_ || _); [done|].
  apply list_elem_of_lookup_2.
Qed.

(** [xs[i]] for an index of either sign is the element at position
    [i mod len(xs)]. *)
Lemma py_getitem_mod {A : Type} (xs : list A) (i : Z) :
  - Z.of_nat (length xs) <= i < Z.of_nat (length xs)
  -> py_getitem xs i = xs !! Z.to_nat (i mod Z.of_nat (length xs)).
Proof.
  intros Hi. unfold py_getitem. cbv zeta.
  set (n := Z.of_nat (length xs)) in *.
  destruct (Z.ltb_spec i 0) as [Hneg|Hpos].
  - replace (i mod n) with (i + n).
    + destruct (Z.ltb_spec (i + n) 0); [lia|].
      destruct (Z.leb_spec n (i + n)); [lia|]. done.
    + rewrite <- (Z.mod_small (i + n) n) by lia.
      replace (i + n) with (i + 1 * n) by lia. apply Z_mod_plus_full.
  - rewrite Z.mod_small by lia.
    destruct (Z.ltb_spec i 0); [lia|].
    destruct (Z.leb_spec n i); [lia|]. done.
Qed.

(** The log that [init_dist] adds, in terms of [enumerated] and
    [local_rank_seen]. *)
Lemma init_dist_added w :
  added w (init_dist w).2
  = EvListPhysicalDevices "GPU"
    :: map (fun gpu => EvSetMemoryGrowth gpu true) (enumerated w)
    ++ (if py_truthy (enumerated w)
        then EvLocalRank
             :: match py_getitem (enumerated w) (local_rank_seen w) with
                | Some gpu => [EvSetVisibleDevices gpu "GPU"]
                | None => []
                end
        else []).
Proof.
  pose proof (init_dist_run w) as Hrun. cbv zeta in Hrun.
  unfold local_rank_seen. unfold enumerated at 3.
  fold (enumerated w) in Hrun |- *.
  destruct (enumerated w) as [|gpu0 gpus'] eqn:Hgpus.
  - rewrite Hrun. cbn [snd]. by rewrite added_World.
  - cbn [py_truthy].
    destruct (py_getitem (gpu0 :: gpus') _) as [gpu|]; rewrite Hrun; cbn [snd];
      rewrite added_World; cbn [app]; do 2 f_equal.
Qed.

Lemma init_dist_selected w :
  selected (added w (init_dist w).2)
  = if py_truthy (enumerated w)
    then match py_getitem (enumerated w) (local_rank_seen w) with
         | Some gpu => [gpu]
         | None => []
         end
    else [].
Proof.
  rewrite init_dist_added.
  change (?e :: ?l1 ++ ?l2) with ([e] ++ l1 ++ l2).
  rewrite !selected_app, selected_growth. cbn [app].
  change (selected [EvListPhysicalDevices "GPU"]) with (@nil device).
  cbn [app].
  destruct (py_truthy (enumerated w)); [|done].
  by destruct (py_getitem _ _).
Qed.

(** X1.  Whatever the enumeration answers and however the run ends, the
    device-configuration calls of [init_dist] are one
    [set_memory_growth(gpu, True)] for every enumerated device, in the order
    of the enumeration, followed by [set_visible_devices(gpu, 'GPU')] for at
    most one device, and that device is one of the enumerated ones. *)
Theorem init_dist_only_enumerated w :
  let l := added w (init_dist w).2 in
  filter (fun e => is_device_config e = true) l
  = map (fun gpu => EvSetMemoryGrowth gpu true) (enumerated w)
    ++ map (fun gpu => EvSetVisibleDevices gpu "GPU") (selected l)
  /\ (forall gpu, gpu ∈ selected l -> gpu ∈ enumerated w)
  /\ (length (selected l) <= 1)%nat.
Proof.
  cbv zeta. rewrite init_dist_selected, init_dist_added.
  rewrite filter_cons_False by (cbn; discriminate).
  rewrite filter_app, filter_device_config_growth.
  destruct (py_truthy (enumerated w)).
  - rewrite filter_cons_False by (cbn; discriminate).
    destruct (py_getitem (enumerated w) (local_rank_seen w)) as [gpu|] eqn:Hgpu.
    + split; [done|]. split; [|done].
      intros gpu' ->%list_elem_of_singleton.
      by eapply py_getitem_elem_of.
    + split; [done|]. split; [|cbn; lia]. by intros gpu' ?%elem_of_nil.
  - split; [done|]. split; [|cbn; lia]. by intros gpu' ?%elem_of_nil.
Qed.

(** X2.  When the local rank is within [-n .. n-1] for [n] enumerated
    devices, [init_dist] makes visible exactly the device at position
    [local_rank mod n] of the enumeration: local ranks [lr] and [lr - n]
    select the same device. *)
Theorem init_dist_selects_modulo w :
  let n := Z.of_nat (length (enumerated w)) in
  - n <= local_rank_seen w < n
  -> exists gpu,
       enumerated w !! Z.to_nat (local_rank_seen w mod n) = Some gpu
       /\ selected (added w (init_dist w).2) = [gpu].
Proof.
  cbv zeta. intros Hin. rewrite init_dist_selected.
  destruct (enumerated w) as [|gpu0 gpus'] eqn:Hgpus; [cbn in Hin; lia|].
  cbn [py_truthy].
  rewrite (py_getitem_mod (gpu0 :: gpus') (local_rank_seen w) Hin).
  destruct (py_getitem_Some (gpu0 :: gpus') (local_rank_seen w) Hin)
    as [gpu Hgpu].
  rewrite (py_getitem_mod _ _ Hin) in Hgpu. rewrite Hgpu. by exists gpu.
Qed.

(** X3.  Two processes that enumerate the same duplicate-free list of [n]
    devices, both with a local rank within [-n .. n-1], make the same device
    visible exactly when their local ranks agree modulo [n]; so different
    local ranks within [0 .. n-1] never share a device. *)
Theorem init_dist_distinct_devices w1 w2 :
  let n := Z.of_nat (length (enumerated w1)) in
  enumerated w1 = enumerated w2
  -> NoDup (enumerated w1)
  -> - n <= local_rank_seen w1 < n
  -> - n <= local_rank_seen w2 < n
  -> (selected (added w1 (init_dist w1).2)
      = selected (added w2 (init_dist w2).2)
      <-> local_rank_seen w1 mod n = local_rank_seen w2 mod n).
Proof.
  cbv zeta. intros Heq Hnodup Hin1 Hin2.
  rewrite !init_dist_selected. rewrite <- Heq.
  destruct (enumerated w1) as [|gpu0 gpus'] eqn:Hgpus; [cbn in Hin1; lia|].
  cbn [py_truthy]. set (gpus := gpu0 :: gpus') in *.
  set (n := Z.of_nat (length gpus)) in *.
  rewrite (py_getitem_mod gpus _ Hin1), (py_getitem_mod gpus _ Hin2).
  fold n.
  assert (0 <= local_rank_seen w1 mod n < n) as Hm1 by (apply Z.mod_pos_bound; lia).
  assert (0 <= local_rank_seen w2 mod n < n) as Hm2 by (apply Z.mod_pos_bound; lia).
  destruct (lookup_lt_is_Some_2 gpus (Z.to_nat (local_rank_seen w1 mod n)))
    as [gpu1 Hgpu1]; [subst n; lia|].
  destruct (lookup_lt_is_Some_2 gpus (Z.to_nat (local_rank_seen w2 mod n)))
    as [gpu2 Hgpu2]; [subst n; lia|].
  rewrite Hgpu1, Hgpu2. split.
  - intros [= ->].
    pose proof (NoDup_lookup _ _ _ _ Hnodup Hgpu1 Hgpu2). lia.
  - intros Hmod. rewrite Hmod in Hgpu1. congruence.
Qed.

(** X8.  The only question [init_dist] asks the distributed runtime is the
    local rank, once, and only when the enumeration answered at least one
    device; it never asks for the global rank or for a size. *)
Theorem init_dist_queries w :
  filter (fun e => is_query e = true) (added w (init_dist w).2)
  = if py_truthy (enumerated w) then [EvLocalRank] else [].
Proof.
  rewrite init_dist_added.
  rewrite filter_cons_False by (cbn; discriminate).
  rewrite filter_app.
  assert (filter (fun e => is_query e = true)
                 (map (fun gpu => EvSetMemoryGrowth gpu true) (enumerated w)
                  : list event) = []) as ->.
  { induction (enumerated w) as [|gpu gpus IH]; [done|].
    cbn [map]. rewrite filter_cons_False by (cbn; discriminate). exact IH. }
  destruct (py_truthy (enumerated w)); [|done].
  by destruct (py_getitem _ _).
Qed.

(** *** master_only, further *)

(** X4.  The wrapper raises an exception exactly when the runtime answers
    global rank [0] and the decorated function raises that exception: the
    wrapper raises nothing of its own and swallows nothing. *)
Theorem master_only_raises_iff (func : callable E) args kw w e :
  (master_only func args kw w).1 = Raised e
  <-> (herring_rank (ext w)).1 = 0
      /\ (func args kw (ext (get_dist_info w).2)).1 = Raised e.
Proof.
  rewrite master_only_run.
  destruct (Z.eqb_spec (herring_rank (ext w)).1 0) as [Hrank|Hrank].
  - rewrite invoke_run. cbn [fst]. split; [by intros ? | by intros [_ ?]].
  - cbn [fst]. split; [discriminate | by intros [? _]].
Qed.


(** *** Which functions synchronise *)

Lemma get_barrier_added w :
  added w (get_barrier w).2
  = [EvConstant 0 float32;
     EvOobAllreduce (tensorflow_constant 0 float32 (ext w)).1].
Proof.
  unfold get_barrier, tf_constant, hr_oob_allreduce.
  erewrite bind_run by apply extcall_run.
  rewrite extcall_run. cbn [snd ext log].
  by rewrite <- app_assoc, added_World.
Qed.

Lemma broadcast_weights_added (r : runner) w :
  added w (broadcast_weights r w).2
  = [EvPrint (rank_banner (rank r)); EvPrint "Variable broadcast done."].
Proof.
  unfold broadcast_weights, bind, print. cbn [snd ext log].
  by rewrite <- app_assoc, added_World.
Qed.

(** X5.  Of the functions of the module, [get_barrier] is the only one that
    makes a collective call, and it makes one: [init_dist],
    [get_dist_info], the wrapper of [master_only], [broadcast_weights] and
    [get_distributed_tape] make none, whatever their arguments and the
    state of the runtime. *)
Theorem only_get_barrier_synchronises w :
  count is_collective (added w (init_dist w).2) = 0%nat
  /\ count is_collective (added w (get_dist_info w).2) = 0%nat
  /\ (forall (func : callable E) args kw,
        count is_collective (added w (master_only func args kw w).2) = 0%nat)
  /\ (forall r : runner,
        count is_collective (added w (broadcast_weights r w).2) = 0%nat)
  /\ (forall t : tape,
        count is_collective (added w (get_distributed_tape t w).2) = 0%nat)
  /\ count is_collective (added w (get_barrier w).2) = 1%nat.
Proof.
  repeat split.
  - rewrite init_dist_added.
    change (?e :: ?l1 ++ ?l2) with ([e] ++ l1 ++ l2).
    rewrite !count_app, count_map_none by done.
    destruct (py_truthy (enumerated w)); [|done].
    by destruct (py_getitem _ _).
  - rewrite (get_dist_info_run w). cbv zeta. cbn [snd].
    by rewrite added_World.
  - intros func args kw. rewrite master_only_run, invoke_run.
    rewrite (get_dist_info_run w). cbv zeta. cbn [snd ext log].
    destruct (_ =? 0); cbn [snd].
    + by rewrite <- app_assoc, added_World.
    + by rewrite added_World.
  - intros r. by rewrite broadcast_weights_added.
  - intros t. unfold get_distributed_tape, hr_DistributedGradientTape.
    rewrite extcall_run. cbn [snd]. by rewrite added_World.
  - by rewrite get_barrier_added.
Qed.

(** *** broadcast_weights, further *)

Lemma string_length_append (s t : string) :
  String.length (s +:+ t) = (String.length s + String.length t)%nat.
Proof.
  induction s as [|a s IH]; [done|].
  change (String a s +:+ t) with (String a (s +:+ t)).
  cbn [String.length]. by rewrite IH.
Qed.

Lemma string_append_inj_r (s1 s2 t : string) :
  s1 +:+ t = s2 +:+ t -> s1 = s2.
Proof.
  revert s2. induction s1 as [|a s1 IH]; intros [|b s2] Heq; [done| | |].
  - apply (f_equal String.length) in Heq.
    change ("" +:+ t) with t in Heq.
    change (String b s2 +:+ t) with (String b (s2 +:+ t)) in Heq.
    cbn [String.length] in Heq. rewrite string_length_append in Heq. lia.
  - apply (f_equal String.length) in Heq.
    change ("" +:+ t) with t in Heq.
    change (String a s1 +:+ t) with (String a (s1 +:+ t)) in Heq.
    cbn [String.length] in Heq. rewrite string_length_append in Heq. lia.
  - change (String a s1 +:+ t) with (String a (s1 +:+ t)) in Heq.
    change (String b s2 +:+ t) with (String b (s2 +:+ t)) in Heq.
    injection Heq as -> Heq. f_equal. by apply IH.
Qed.

Lemma rank_banner_inj (r1 r2 : Z) : rank_banner r1 = rank_banner r2 -> r1 = r2.
Proof.
  unfold rank_banner. intros Heq.
  apply (inj (String.append "Rank ")) in Heq.
  apply string_append_inj_r in Heq.
  by apply (inj pretty) in Heq.
Qed.

(** X6.  What [broadcast_weights] prints depends on the rank of the runner
    and on nothing else, neither the model nor the optimizer nor the state
    of the runtime; and the line it prints first tells the ranks apart: two
    runs print the same exactly when the two runners have the same rank. *)
Theorem broadcast_weights_output_rank (r1 r2 : runner) w1 w2 :
  added w1 (broadcast_weights r1 w1).2 = added w2 (broadcast_weights r2 w2).2
  <-> rank r1 = rank r2.
Proof.
  rewrite !broadcast_weights_added. split.
  - intros Heq. apply rank_banner_inj.
    exact (f_equal (fun l : list event =>
                      match l with EvPrint line :: _ => line | _ => "" end)
                   Heq).
  - by intros ->.
Qed.

End Further.

(** ** The further properties on the simulated runtime *)

Section FurtherRuns.

Import Sim.

(** X2 at three accelerators and local rank [-2]: position [1]. *)
Lemma init_dist_selects_modulo_witness :
  exists gpu,
    [10; 11; 12]%N !! 1%nat = Some gpu
    /\ selected (added (start (process_of 1 (-2) [10; 11; 12]%N))
                       (init_dist (start (process_of 1 (-2) [10; 11; 12]%N))).2)
       = [gpu].
Proof.
  refine (init_dist_selects_modulo
            (start (process_of 1 (-2) [10; 11; 12]%N)) _).
  cbn. lia.
Defined.

(** X3 at three accelerators: local ranks [0] and [2] differ modulo [3]. *)
Lemma init_dist_distinct_devices_witness :
  selected (added (start (process_of 0 0 [10; 11; 12]%N))
                  (init_dist (start (process_of 0 0 [10; 11; 12]%N))).2)
  = selected (added (start (process_of 2 2 [10; 11; 12]%N))
                    (init_dist (start (process_of 2 2 [10; 11; 12]%N))).2)
  <-> 0 mod 3 = 2 mod 3.
Proof.
  refine (init_dist_distinct_devices
            (start (process_of 0 0 [10; 11; 12]%N))
            (start (process_of 2 2 [10; 11; 12]%N)) _ _ _ _).
  - reflexivity.
  - cbn. compute_done.
  - cbn. lia.
  - cbn. lia.
Defined.

End FurtherRuns.
